(** * Bible cross-reference merger: a shallow embedding of
      [merge_bible_references.py] and the properties of its merge and
      analysis steps.

    The script reads every [*.json] file of a directory with [json.load],
    folds the decoded dictionaries into one dictionary [merged_data], writes
    it out, and then tallies verses per book.  The embedding follows the
    Python text statement by statement:
    - Python values are modelled by [pyval]; a dictionary keeps its
      insertion order (an association list, one entry per key);
    - an operation that raises in Python returns [inl e] here, and a loop
      stops at the first exception with what it has stored so far;
    - the input of [merge_json_files] is what the directory listing and
      [json.load] give: for each path its name and either the decoded value
      or the exception raised;
    - what is printed and the write of the output file are kept as a list
      of events;
    - [print] raises [UnicodeEncodeError] on a text that the standard
      output cannot encode; the code points that it encodes are a parameter
      of the embedding ([encodes]). *)

From Stdlib Require Import List ZArith NArith Bool Lia Permutation Sorted Ascii.
From Stdlib Require String.
Import String.StringSyntax.
Delimit Scope string_scope with string.
From Stdlib Require Import Floats.SpecFloat.
Import ListNotations.

Set Implicit Arguments.

(** ** Python values *)

Module Py.

(** A [str] is a sequence of Unicode code points. *)
Definition pystr := list N.

(** An ASCII literal as a [str]. *)
Definition lit (s : String.string) : pystr :=
  map N_of_ascii (String.list_ascii_of_string s).

Arguments lit s%_string.

(** The exceptions the script can meet; all derive from [Exception]. *)
Inductive pyexn :=
| TypeError | AttributeError | ValueError | KeyError | IndexError
| OSError | JSONDecodeError | UnicodeDecodeError | UnicodeEncodeError.

(** Dictionary keys, kept up to Python's [==]: [True], [1] and [1.0] are
    one key, so booleans and integral floats are stored as [KInt]. *)
Inductive pykey :=
| KNone
| KInt (z : Z)
| KFloat (f : spec_float)
| KStr (s : pystr).

(** What [json.load] returns, and what [dict.update] can make of it. *)
#[warnings="-register-all"] Inductive pyval :=
| PNone
| PBool (b : bool)
| PInt (z : Z)
| PFloat (f : spec_float)
| PStr (s : pystr)
| PList (l : list pyval)
| PDict (d : list (pykey * pyval)).

Definition pydict := list (pykey * pyval).

Definition pystr_eq_dec (a b : pystr) : {a = b} + {a <> b} :=
  list_eq_dec N.eq_dec a b.

Definition spec_float_eq_dec (a b : spec_float) : {a = b} + {a <> b}.
Proof.
  decide equality; try apply Z.eq_dec; try apply Pos.eq_dec; apply bool_dec.
Defined.

Definition pykey_eq_dec (a b : pykey) : {a = b} + {a <> b}.
Proof.
  decide equality;
    [apply Z.eq_dec | apply spec_float_eq_dec | apply pystr_eq_dec].
Defined.

Definition pykey_eqb (a b : pykey) : bool :=
  if pykey_eq_dec a b then true else false.

(** The integer a float is equal to, if any. *)
Definition float_as_int (f : spec_float) : option Z :=
  match f with
  | S754_zero _ => Some 0%Z
  | S754_finite s m e =>
      let sign (z : Z) := if s then (- z)%Z else z in
      if (0 <=? e)%Z then Some (sign (Z.pos m * 2 ^ e)%Z)
      else if (Z.pos m mod 2 ^ (- e) =? 0)%Z
           then Some (sign (Z.pos m / 2 ^ (- e))%Z)
           else None
  | _ => None
  end.

(** [hash(x)]: lists and dictionaries are unhashable. *)
Definition key_of (x : pyval) : pyexn + pykey :=
  match x with
  | PNone => inr KNone
  | PBool b => inr (KInt (if b then 1 else 0))
  | PInt z => inr (KInt z)
  | PFloat f =>
      match float_as_int f with
      | Some z => inr (KInt z)
      | None => inr (KFloat f)
      end
  | PStr s => inr (KStr s)
  | PList _ | PDict _ => inl TypeError
  end.

(** A key read back as a value (iterating a dictionary yields its keys). *)
Definition val_of_key (k : pykey) : pyval :=
  match k with
  | KNone => PNone
  | KInt z => PInt z
  | KFloat f => PFloat f
  | KStr s => PStr s
  end.

(** *** Dictionaries *)

Definition keys (d : pydict) : list pykey := map fst d.
Definition values (d : pydict) : list pyval := map snd d.

(** [d.get(k)] *)
Fixpoint dict_get (k : pykey) (d : pydict) : option pyval :=
  match d with
  | [] => None
  | (k', v) :: d' => if pykey_eqb k k' then Some v else dict_get k d'
  end.

(** [k in d] *)
Definition dict_mem (k : pykey) (d : pydict) : bool :=
  match dict_get k d with Some _ => true | None => false end.

(** [d[k] = v]: an existing key keeps its place, a new one goes last. *)
Fixpoint dict_set (k : pykey) (v : pyval) (d : pydict) : pydict :=
  match d with
  | [] => [(k, v)]
  | (k', v') :: d' =>
      if pykey_eqb k k' then (k', v) :: d' else (k', v') :: dict_set k v d'
  end.

(** [d.update(other)] for a dictionary [other]. *)
Definition dict_update (d other : pydict) : pydict :=
  fold_left (fun acc kv => dict_set (fst kv) (snd kv) acc) other d.

(** One element of the sequence given to [d.update(seq)]: it is turned into
    a sequence, which must have exactly two items, a key and a value. *)
Definition pair_of_item (item : pyval) : pyexn + (pykey * pyval) :=
  match item with
  | PList [k; v] =>
      match key_of k with inl e => inl e | inr k' => inr (k', v) end
  | PList _ => inl ValueError
  | PStr [c1; c2] => inr (KStr [c1], PStr [c2])
  | PStr _ => inl ValueError
  | PDict [(k1, _); (k2, _)] => inr (k1, val_of_key k2)
  | PDict _ => inl ValueError
  | PNone | PBool _ | PInt _ | PFloat _ => inl TypeError
  end.

(** [d.update(seq)] for a list: the pairs are stored one by one, and those
    stored before a bad element stay. *)
Fixpoint dict_update_seq (d : pydict) (seq : list pyval)
  : pydict * option pyexn :=
  match seq with
  | [] => (d, None)
  | item :: seq' =>
      match pair_of_item item with
      | inl e => (d, Some e)
      | inr (k, v) => dict_update_seq (dict_set k v d) seq'
      end
  end.

(** [d.update(x)] for any value [x]. *)
Definition py_update (d : pydict) (x : pyval) : pydict * option pyexn :=
  match x with
  | PDict other => (dict_update d other, None)
  | PList seq => dict_update_seq d seq
  | PStr [] => (d, None)
  | PStr (_ :: _) => (d, Some ValueError)
  | PNone | PBool _ | PInt _ | PFloat _ => (d, Some TypeError)
  end.

(** *** Operators *)

(** [k in x] for a string [k]. *)
Definition py_contains (k : pystr) (x : pyval) : pyexn + bool :=
  match x with
  | PDict d => inr (dict_mem (KStr k) d)
  | PList l =>
      inr (existsb (fun y => match y with
                             | PStr s => if pystr_eq_dec s k then true else false
                             | _ => false
                             end) l)
  | PStr s =>
      inr ((fix sub (t : pystr) : bool :=
              match t with
              | [] => match k with [] => true | _ => false end
              | _ :: t' =>
                  if pystr_eq_dec (firstn (length k) t) k then true else sub t'
              end) s)
  | PNone | PBool _ | PInt _ | PFloat _ => inl TypeError
  end.

(** [x[k]] for a string [k]. *)
Definition py_getitem (x : pyval) (k : pystr) : pyexn + pyval :=
  match x with
  | PDict d =>
      match dict_get (KStr k) d with Some v => inr v | None => inl KeyError end
  | _ => inl TypeError
  end.

(** [x.get(k, default)]: only dictionaries have [get]. *)
Definition py_get (x : pyval) (k : pystr) (default : pyval) : pyexn + pyval :=
  match x with
  | PDict d =>
      match dict_get (KStr k) d with Some v => inr v | None => inr default end
  | _ => inl AttributeError
  end.

(** [len(x)] *)
Definition py_len (x : pyval) : pyexn + nat :=
  match x with
  | PStr s => inr (length s)
  | PList l => inr (length l)
  | PDict d => inr (length d)
  | PNone | PBool _ | PInt _ | PFloat _ => inl TypeError
  end.

(** [bool(x)] *)
Definition py_truth (x : pyval) : bool :=
  match x with
  | PNone => false
  | PBool b => b
  | PInt z => negb (z =? 0)%Z
  | PFloat (S754_zero _) => false
  | PFloat _ => true
  | PStr s => match s with [] => false | _ => true end
  | PList l => match l with [] => false | _ => true end
  | PDict d => match d with [] => false | _ => true end
  end.

(** [c.isspace()] for one code point. *)
Definition is_space (c : N) : bool :=
  ((9 <=? c) && (c <=? 13) || (28 <=? c) && (c <=? 32) || (c =? 133)
   || (c =? 160) || (c =? 5760) || (8192 <=? c) && (c <=? 8202)
   || (c =? 8232) || (c =? 8233) || (c =? 8239) || (c =? 8287)
   || (c =? 12288))%N.

Fixpoint skip_spaces (s : pystr) : pystr :=
  match s with
  | c :: s' => if is_space c then skip_spaces s' else s
  | [] => []
  end.

Fixpoint take_word (s : pystr) : pystr :=
  match s with
  | c :: s' => if is_space c then [] else c :: take_word s'
  | [] => []
  end.

(** [s.split()[0]]: the first whitespace-delimited word; [IndexError] when
    the string has no word. *)
Definition split_first (s : pystr) : pyexn + pystr :=
  match skip_spaces s with
  | [] => inl IndexError
  | rest => inr (take_word rest)
  end.

(** [a < b] on strings: by code point, a proper prefix first. *)
Fixpoint pystr_ltb (a b : pystr) : bool :=
  match a, b with
  | _, [] => false
  | [], _ :: _ => true
  | x :: a', y :: b' =>
      if (x <? y)%N then true
      else if (y <? x)%N then false
      else pystr_ltb a' b'
  end.

End Py.

Import Py.

(** ** The merger *)

(** What [open] followed by [json.load] gives for one file: the decoded
    value, or the exception raised ([OSError], [UnicodeDecodeError],
    [JSONDecodeError], ...). *)
Inductive load_result :=
| Loaded (data : pyval)
| LoadFails (e : pyexn).

(** One path yielded by [input_path.glob('*.json')].  The names of the
    files are taken to be text that the standard output can encode. *)
Record json_file := JsonFile { name : pystr; content : load_result }.

(** Whether writing the output file succeeds ([open], [json.dump] and
    [os.path.getsize] are all inside one [try]). *)
Inductive write_outcome :=
| WriteOk
| WriteFails (e : pyexn).

(** What the script prints, line by line, and its attempt to write the
    output file.  A [print] whose text cannot be encoded leaves no line. *)
Inductive event :=
| Found (n : nat)
| NoJsonFiles
| Processing (file : pystr)
| DuplicateWarning (verse_id : pykey) (file : pystr)
| ErrorProcessing (file : pystr) (e : pyexn)
| MergeComplete (total_verses total_references : nat)
| SavingTo
| WriteAttempt (data : pydict)
| Done
| ErrorSaving (e : pyexn)
| NoDataToAnalyze
| BookStatistics (total_books : nat)
| BookLine (book : pystr) (count : nat)
| Banner
| Complete.

(** How a call ends: with a value, or with an exception nobody caught. *)
Inductive outcome (A : Type) :=
| Returns (a : A) (out : list event)
| Raises (e : pyexn) (out : list event).

Arguments Raises {A} e out.

Definition printed {A} (o : outcome A) : list event :=
  match o with Returns _ out => out | Raises _ out => out end.

Definition returned {A} (o : outcome A) : option A :=
  match o with Returns a _ => Some a | Raises _ _ => None end.

Definition key_r : pystr := lit "r".
Definition key_v : pystr := lit "v".

(** [sorted(...)] of the paths of one directory: by file name, code point
    by code point, and stable. *)
Fixpoint insert_sorted (f : json_file) (l : list json_file) : list json_file :=
  match l with
  | [] => [f]
  | g :: l' =>
      if pystr_ltb (name g) (name f) then g :: insert_sorted f l' else f :: l
  end.

Definition sorted (l : list json_file) : list json_file :=
  fold_right insert_sorted [] l.

(** Lines 48-49, for a verse already in [merged_data]:
<<
    if 'r' in verse_data and 'r' in merged_data[verse_id]:
        merged_data[verse_id]['r'].update(verse_data['r'])
>>
    The result is the entry of [merged_data] afterwards and the exception
    raised, if any.  The values decoded from one file form a tree and share
    nothing with those of another file, so the update in place of the
    entry's ['r'] changes this entry and nothing else. *)
Definition merge_references (existing verse_data : pyval)
  : pyval * option pyexn :=
  match py_contains key_r verse_data with
  | inl e => (existing, Some e)
  | inr false => (existing, None)
  | inr true =>
      match py_contains key_r existing with
      | inl e => (existing, Some e)
      | inr false => (existing, None)
      | inr true =>
          match existing with
          | PDict fields =>
              match dict_get (KStr key_r) fields with
              | None => (existing, Some KeyError)
              | Some (PDict refs) =>
                  match py_getitem verse_data key_r with
                  | inl e => (existing, Some e)
                  | inr new_refs =>
                      let (refs', e) := py_update refs new_refs in
                      (PDict (dict_set (KStr key_r) (PDict refs') fields), e)
                  end
              | Some _ => (existing, Some AttributeError)
              end
          | _ => (existing, Some TypeError)
          end
      end
  end.

(** ** Example inputs *)

(** A JSON object with ASCII keys. *)
Definition obj (l : list (String.string * pyval)) : pyval :=
  PDict (map (fun kv => (KStr (lit (fst kv)), snd kv)) l).

Definition str (s : String.string) : pyval := PStr (lit s).

Arguments str s%_string.

(** [a.json] and [b.json] of the specification's example. *)
Definition a_json : json_file :=
  JsonFile (lit "a.json")
    (Loaded (obj [("GEN.1.1"%string,
                   obj [("v"%string, str "Genesis 1:1");
                        ("r"%string, obj [("x"%string, PInt 1)])])])).

Definition b_json : json_file :=
  JsonFile (lit "b.json")
    (Loaded (obj [("GEN.1.1"%string,
                   obj [("r"%string, obj [("y"%string, PInt 2)])])])).



(** Two files with different verses. *)
Definition gen_json : json_file :=
  JsonFile (lit "gen.json")
    (Loaded (obj [("GEN.1.1"%string, obj [("v"%string, str "Genesis 1:1")]);
                  ("GEN.1.2"%string, obj [("v"%string, str "Genesis 1:2")])])).

Definition exo_json : json_file :=
  JsonFile (lit "exo.json")
    (Loaded (obj [("EXO.1.1"%string, obj [("v"%string, str "Exodus 1:1")])])).

(** [b.json] with a record that has no ['r']. *)
Definition b_without_r : json_file :=
  JsonFile (lit "b.json")
    (Loaded (obj [("GEN.1.1"%string, obj [("v"%string, str "Gen 1:1")])])).




(** A combined mapping whose only verse has a blank ['v']. *)
Definition blank_ref_mapping : pydict :=
  [(KStr (lit "GEN.1.1"), obj [("v"%string, str " ")])].


(** A lone surrogate, as [json.load] gives it for ["\ud800"]. *)
Definition surrogate : pystr := [55296%N].

(** Two files of the data model that share an identifier which is a lone
    surrogate; the second has a further verse. *)
Definition surrogate_a_json : json_file :=
  JsonFile (lit "a.json")
    (Loaded (PDict [(KStr surrogate,
                     obj [("r"%string, obj [("x"%string, PInt 1)])])])).

Definition surrogate_b_json : json_file :=
  JsonFile (lit "b.json")
    (Loaded (PDict [(KStr surrogate,
                     obj [("r"%string, obj [("y"%string, PInt 2)])]);
                    (KStr (lit "Z"), obj [])])).

(** A file whose verse has a book name that starts with a lone
    surrogate. *)
Definition surrogate_book_json : json_file :=
  JsonFile (lit "s.json")
    (Loaded (obj [("G"%string,
                   PDict [(KStr (lit "v"),
                           PStr (surrogate ++ lit "Gen 1:1"))])])).

(** ** The standard output *)

(** [print] encodes its text for the standard output and raises
    [UnicodeEncodeError], printing nothing of it, when the text has a
    character that cannot be encoded.  Which code points can be encoded
    depends on the encoding and the error handler of the standard output:
    UTF-8 with [strict] encodes every code point but the surrogates, and
    with [surrogateescape] also U+DC80 to U+DCFF.  JSON text can give any
    code point, a lone surrogate too (["\ud800"]). *)
Definition utf8 (c : N) : bool :=
  ((c <? 55296) || (57343 <? c) && (c <? 1114112))%N.

Definition utf8_surrogateescape (c : N) : bool :=
  (utf8 c || (56448 <=? c) && (c <=? 56575))%N.

Section Stdout.

(** The code points that the standard output can encode.  The fixed text
    of the messages, the digits of the numbers, the text of the exceptions
    and the names and paths of the files are taken to be made of them. *)
Variable encodes : N -> bool.

(** [print] of this text raises nothing. *)
Definition printable (s : pystr) : bool := forallb encodes s.

(** [print] of this key, formatted by an f-string, raises nothing. *)
Definition printable_key (k : pykey) : bool :=
  match k with
  | KStr s => printable s
  | KNone | KInt _ | KFloat _ => true
  end.

(** Lines 45-51, the body of the loop over [data.items()]: the new
    [merged_data], what is printed, and the exception raised, if any.  The
    warning of line 46 is printed before lines 48-49 are run; when its
    [print] raises, they are not run. *)
Definition merge_entry (file : pystr) (verse_id : pykey) (verse_data : pyval)
    (merged_data : pydict) : pydict * list event * option pyexn :=
  match dict_get verse_id merged_data with
  | Some existing =>
      if printable_key verse_id then
        let (existing', e) := merge_references existing verse_data in
        (dict_set verse_id existing' merged_data,
         [DuplicateWarning verse_id file], e)
      else (merged_data, [], Some UnicodeEncodeError)
  | None => (dict_set verse_id verse_data merged_data, [], None)
  end.

(** Lines 44-51: the loop stops at the first exception, and what it stored
    before stays in [merged_data]. *)
Fixpoint merge_items (file : pystr) (items : pydict) (merged_data : pydict)
  : pydict * list event * option pyexn :=
  match items with
  | [] => (merged_data, [], None)
  | (verse_id, verse_data) :: rest =>
      match merge_entry file verse_id verse_data merged_data with
      | (merged_data, out, Some e) => (merged_data, out, Some e)
      | (merged_data, out, None) =>
          let '(merged_data, out', e) := merge_items file rest merged_data in
          (merged_data, out ++ out', e)
      end
  end.

(** Lines 37-55, one turn of the loop over the files: every exception of
    the [try] block is caught and reported, and the loop goes on.  A decoded
    value that is not a dictionary has no [items]. *)
Definition process_file (f : json_file) (merged_data : pydict)
  : pydict * list event :=
  match content f with
  | LoadFails e =>
      (merged_data, [Processing (name f); ErrorProcessing (name f) e])
  | Loaded (PDict items) =>
      match merge_items (name f) items merged_data with
      | (merged_data, out, Some e) =>
          (merged_data,
           Processing (name f) :: out ++ [ErrorProcessing (name f) e])
      | (merged_data, out, None) => (merged_data, Processing (name f) :: out)
      end
  | Loaded _ =>
      (merged_data,
       [Processing (name f); ErrorProcessing (name f) AttributeError])
  end.

(** Lines 36-55. *)
Fixpoint merge_loop (json_files : list json_file) (merged_data : pydict)
  : pydict * list event :=
  match json_files with
  | [] => (merged_data, [])
  | f :: rest =>
      let (merged_data, out) := process_file f merged_data in
      let (merged_data, out') := merge_loop rest merged_data in
      (merged_data, out ++ out')
  end.

(** Line 59: [sum(len(v.get('r', {})) for v in merged_data.values())]. *)
Fixpoint sum_references (vs : list pyval) : pyexn + nat :=
  match vs with
  | [] => inr 0
  | v :: vs' =>
      match py_get v key_r (PDict []) with
      | inl e => inl e
      | inr r =>
          match py_len r with
          | inl e => inl e
          | inr n =>
              match sum_references vs' with
              | inl e => inl e
              | inr m => inr (n + m)
              end
          end
      end
  end.

(** [merge_json_files(input_dir, output_file)]; [globbed] is what
    [input_path.glob('*.json')] yields, in the order of the file system. *)
Definition merge_json_files (globbed : list json_file) (w : write_outcome)
  : outcome pydict :=
  let merged_data := [] in
  let json_files := sorted globbed in
  let out := [Found (length json_files)] in
  if Nat.eqb (length json_files) 0 then
    Returns merged_data (out ++ [NoJsonFiles])
  else
    let (merged_data, out') := merge_loop json_files merged_data in
    let out := out ++ out' in
    let total_verses := length merged_data in
    match sum_references (values merged_data) with
    | inl e => Raises e out
    | inr total_references =>
        let out :=
          out ++ [MergeComplete total_verses total_references; SavingTo;
                  WriteAttempt merged_data] in
        match w with
        | WriteOk => Returns merged_data (out ++ [Done])
        | WriteFails e => Returns merged_data (out ++ [ErrorSaving e])
        end
    end.

(** The dictionary held in [merged_data] when the loop over the files ends
    (line 57). *)
Definition merged_after_loop (globbed : list json_file) : pydict :=
  fst (merge_loop (sorted globbed) []).

(** ** The analyzer *)

(** Lines 92-94: [books[book]] is created at [0] when missing, then
    incremented. *)
Fixpoint count_book (book : pystr) (books : list (pystr * nat))
  : list (pystr * nat) :=
  match books with
  | [] => [(book, 1)]
  | (b, n) :: books' =>
      if pystr_eq_dec book b then (b, S n) :: books'
      else (b, n) :: count_book book books'
  end.

(** Lines 89-94, the body of the loop over [merged_data.items()]. *)
Definition tally_verse (verse_data : pyval) (books : list (pystr * nat))
  : pyexn + list (pystr * nat) :=
  match py_get verse_data key_v (PStr []) with
  | inl e => inl e
  | inr verse_ref =>
      if py_truth verse_ref then
        match verse_ref with
        | PStr s =>
            match split_first s with
            | inl e => inl e
            | inr book => inr (count_book book books)
            end
        | _ => inl AttributeError
        end
      else inr books
  end.

(** Lines 87-94. *)
Fixpoint tally (vs : list pyval) (books : list (pystr * nat))
  : pyexn + list (pystr * nat) :=
  match vs with
  | [] => inr books
  | v :: vs' =>
      match tally_verse v books with
      | inl e => inl e
      | inr books' => tally vs' books'
      end
  end.

(** Line 99: [sorted(books.items(), key=lambda x: x[1], reverse=True)],
    a stable sort by decreasing count. *)
Fixpoint insert_by_count (x : pystr * nat) (l : list (pystr * nat))
  : list (pystr * nat) :=
  match l with
  | [] => [x]
  | y :: l' =>
      if Nat.ltb (snd x) (snd y) then y :: insert_by_count x l' else x :: l
  end.

Definition top_books (books : list (pystr * nat)) : list (pystr * nat) :=
  firstn 10 (fold_right insert_by_count [] books).

(** Lines 99-100: one line per book; the loop stops at the first name
    that cannot be encoded. *)
Fixpoint print_books (top : list (pystr * nat)) : list event * option pyexn :=
  match top with
  | [] => ([], None)
  | (book, count) :: rest =>
      if printable book then
        let (out, e) := print_books rest in (BookLine book count :: out, e)
      else ([], Some UnicodeEncodeError)
  end.

(** [analyze_data(merged_data)] *)
Definition analyze_data (merged : pydict) : outcome unit :=
  match merged with
  | [] => Returns tt [NoDataToAnalyze]
  | _ =>
      match tally (values merged) [] with
      | inl e => Raises e []
      | inr books =>
          match print_books (top_books books) with
          | (out, Some e) => Raises e (BookStatistics (length books) :: out)
          | (out, None) => Returns tt (BookStatistics (length books) :: out)
          end
      end
  end.

(** The book tally that [analyze_data] builds (lines 87-94). *)
Definition book_tally (merged : pydict) : pyexn + list (pystr * nat) :=
  tally (values merged) [].

(** ** The script *)

(** Lines 102-126.  An uncaught exception ends the process with a traceback
    and a non-zero status; otherwise the script prints its last banner and
    exits with status 0. *)
Definition main (globbed : list json_file) (w : write_outcome)
  : outcome unit :=
  match merge_json_files globbed w with
  | Raises e out => Raises e (Banner :: out)
  | Returns merged out =>
      match analyze_data merged with
      | Raises e out' => Raises e (Banner :: out ++ out')
      | Returns _ out' => Returns tt (Banner :: out ++ out' ++ [Complete])
      end
  end.

Definition exit_status (o : outcome unit) : nat :=
  match o with Returns _ _ => 0 | Raises _ _ => 1 end.

(** ** Vocabulary of the properties *)

(** The entry of an identifier already merged, after lines 46-49. *)
Definition merged_with (k : pykey) (existing v : pyval) : pyval :=
  if printable_key k then fst (merge_references existing v) else existing.

(** What lines 45-51 leave in [merged_data]; the file name only shows in
    the warning. *)
Definition absorb (m : pydict) (k : pykey) (v : pyval) : pydict :=
  match dict_get k m with
  | Some existing => dict_set k (merged_with k existing v) m
  | None => dict_set k v m
  end.

(** The items the loop over [data.items()] runs through: those of a decoded
    dictionary, none for a file that is skipped. *)
Definition file_items (f : json_file) : pydict :=
  match content f with
  | Loaded (PDict items) => items
  | _ => []
  end.


(** The keys of a dictionary are pairwise distinct; [json.load] keeps one
    entry per key. *)
Fixpoint unique_keys (ks : list pykey) : bool :=
  match ks with
  | [] => true
  | k :: ks' => negb (existsb (pykey_eqb k) ks') && unique_keys ks'
  end.

(** A verse record: an object whose ['r'], when present, is an object. *)
Definition verse_record (x : pyval) : bool :=
  match x with
  | PDict fields =>
      match dict_get (KStr key_r) fields with
      | None => true
      | Some (PDict refs) => unique_keys (keys refs)
      | Some _ => false
      end
  | _ => false
  end.

(** A file of the data model: what it brings to the merge is a mapping from
    verse identifiers to verse records.  (A file that is skipped brings
    nothing.) *)
Definition data_model (f : json_file) : bool :=
  unique_keys (keys (file_items f))
  && forallb verse_record (values (file_items f)).

(** The string has a character that is not whitespace. *)
Definition has_word (s : pystr) : bool :=
  existsb (fun c => negb (is_space c)) s.

(** A record that lines 59 and 89-94 can handle: an object whose ['r'],
    when present, has a length, and whose ['v'], when present, is falsy or
    a string with a word in it. *)
Definition analyzable (x : pyval) : bool :=
  match x with
  | PDict fields =>
      match dict_get (KStr key_r) fields with
      | None => true
      | Some r => match py_len r with inr _ => true | inl _ => false end
      end
      && match dict_get (KStr key_v) fields with
         | None => true
         | Some (PStr s) => match s with [] => true | _ => has_word s end
         | Some v => negb (py_truth v)
         end
  | _ => false
  end.

(** The object has no ['r']. *)
Definition lacks_r (x : pyval) : bool :=
  match x with
  | PDict fields => negb (dict_mem (KStr key_r) fields)
  | _ => false
  end.

(** The ['r'] sub-mapping of a record. *)
Definition refs_of (x : pyval) : option pydict :=
  match x with
  | PDict fields =>
      match dict_get (KStr key_r) fields with
      | Some (PDict refs) => Some refs
      | _ => None
      end
  | _ => None
  end.

(** A field of a record. *)
Definition field (x : pyval) (k : pykey) : option pyval :=
  match x with
  | PDict fields => dict_get k fields
  | _ => None
  end.

(** The records that the files hold for one identifier, in the order of
    the files. *)
Definition occurrences (k : pykey) (files : list json_file) : list pyval :=
  flat_map (fun f => match dict_get k (file_items f) with
                     | Some v => [v]
                     | None => []
                     end) files.





(** What line 49 makes of the entry, the exception left aside. *)
Definition combine (existing v : pyval) : pyval :=
  fst (merge_references existing v).

(** The loop prints nothing about the output file. *)
Definition loop_event (ev : event) : Prop :=
  match ev with
  | Processing _ | DuplicateWarning _ _ | ErrorProcessing _ _ => True
  | _ => False
  end.



(** The book a verse is counted under: the first word of a ['v'] that is a
    non-empty string. *)
Definition book_of (x : pyval) : option pystr :=
  match x with
  | PDict fields =>
      match dict_get (KStr key_v) fields with
      | Some (PStr (c :: s)) => Some (take_word (skip_spaces (c :: s)))
      | _ => None
      end
  | _ => None
  end.

Definition counted_under (book : pystr) (x : pyval) : bool :=
  match book_of x with
  | Some b => if pystr_eq_dec book b then true else false
  | None => false
  end.

(** [books.get(book, 0)] *)
Definition count_of (book : pystr) (books : list (pystr * nat)) : nat :=
  match find (fun e => if pystr_eq_dec book (fst e) then true else false)
             books with
  | Some e => snd e
  | None => 0
  end.

(** [entry] is [record] with at most its ['r'] dictionary changed: the
    other fields are those of [record], a [record] without an ['r']
    dictionary is [entry] itself, and no key of the ['r'] of [record] is
    missing in the ['r'] of [entry]. *)
Definition derived_from (record entry : pyval) : Prop :=
  (forall fld, fld <> KStr key_r -> field entry fld = field record fld) /\
  (refs_of record = None -> entry = record) /\
  (forall refs x, refs_of record = Some refs -> In x (keys refs) ->
     exists refs', refs_of entry = Some refs' /\ In x (keys refs')).








(** The standard output can encode the identifiers of the file. *)
Definition printable_ids (f : json_file) : bool :=
  forallb printable_key (keys (file_items f)).



(** ** Facts about dictionaries *)

Section DictFacts.

Lemma pykey_eqb_refl (k : pykey) : pykey_eqb k k = true.
Proof. unfold pykey_eqb. destruct (pykey_eq_dec k k); congruence. Qed.

Lemma pykey_eqb_neq (k k' : pykey) : k <> k' -> pykey_eqb k k' = false.
Proof. unfold pykey_eqb. destruct (pykey_eq_dec k k'); congruence. Qed.

Lemma pykey_eqb_true (k k' : pykey) : pykey_eqb k k' = true -> k = k'.
Proof. unfold pykey_eqb. destruct (pykey_eq_dec k k'); congruence. Qed.

Lemma dict_get_None (k : pykey) (d : pydict) :
  dict_get k d = None <-> ~ In k (keys d).
Proof.
  induction d as [|[k' v] d IH]; simpl.
  - tauto.
  - unfold pykey_eqb. destruct (pykey_eq_dec k k') as [->|Hne].
    + split; [discriminate | intros H; exfalso; apply H; now left].
    + rewrite IH. split; intros H; [intros [E|E]; congruence | tauto].
Qed.

Lemma dict_get_Some_In (k : pykey) (v : pyval) (d : pydict) :
  dict_get k d = Some v -> In (k, v) d.
Proof.
  induction d as [|[k' v'] d IH]; simpl; [discriminate|].
  unfold pykey_eqb. destruct (pykey_eq_dec k k') as [->|Hne].
  - intros [= ->]. now left.
  - intros H. right. auto.
Qed.

Lemma dict_get_In_keys (k : pykey) (v : pyval) (d : pydict) :
  dict_get k d = Some v -> In k (keys d).
Proof.
  intros H. apply dict_get_Some_In in H.
  unfold keys. change k with (fst (k, v)). now apply in_map.
Qed.

Lemma In_dict_get (k : pykey) (v : pyval) (d : pydict) :
  NoDup (keys d) -> In (k, v) d -> dict_get k d = Some v.
Proof.
  induction d as [|[k' v'] d IH]; simpl; [tauto|].
  intros Hnd [E|Hin].
  - injection E as -> ->. now rewrite pykey_eqb_refl.
  - inversion Hnd as [|? ? Hnotin Hnd']; subst.
    rewrite pykey_eqb_neq; [auto|].
    intros ->. apply Hnotin. unfold keys.
    change k' with (fst (k', v)). now apply in_map.
Qed.

Lemma dict_get_set_same (k : pykey) (v : pyval) (d : pydict) :
  dict_get k (dict_set k v d) = Some v.
Proof.
  induction d as [|[k' v'] d IH]; simpl.
  - now rewrite pykey_eqb_refl.
  - destruct (pykey_eqb k k') eqn:E; simpl; rewrite E; auto.
Qed.

Lemma dict_get_set_other (k k' : pykey) (v : pyval) (d : pydict) :
  k <> k' -> dict_get k' (dict_set k v d) = dict_get k' d.
Proof.
  intros Hne. induction d as [|[k0 v0] d IH]; simpl.
  - rewrite pykey_eqb_neq; auto.
  - destruct (pykey_eqb k k0) eqn:E; simpl.
    + apply pykey_eqb_true in E. subst k0. rewrite pykey_eqb_neq; auto.
    + now rewrite IH.
Qed.

Lemma dict_set_same_value (k : pykey) (v : pyval) (d : pydict) :
  dict_get k d = Some v -> dict_set k v d = d.
Proof.
  induction d as [|[k' v'] d IH]; simpl; [discriminate|].
  destruct (pykey_eqb k k') eqn:E.
  - now intros [= ->].
  - intros H. now rewrite IH.
Qed.

Lemma dict_set_new (k : pykey) (v : pyval) (d : pydict) :
  dict_get k d = None -> dict_set k v d = d ++ [(k, v)].
Proof.
  induction d as [|[k' v'] d IH]; simpl; [reflexivity|].
  destruct (pykey_eqb k k'); [discriminate|].
  intros H. now rewrite IH.
Qed.

Lemma keys_dict_set_present (k : pykey) (v w : pyval) (d : pydict) :
  dict_get k d = Some w -> keys (dict_set k v d) = keys d.
Proof.
  induction d as [|[k' v'] d IH]; simpl; [discriminate|].
  destruct (pykey_eqb k k') eqn:E; simpl; [reflexivity|].
  intros H. f_equal. auto.
Qed.

Lemma keys_dict_set (k : pykey) (v : pyval) (d : pydict) :
  keys (dict_set k v d) = if dict_mem k d then keys d else keys d ++ [k].
Proof.
  unfold dict_mem. destruct (dict_get k d) eqn:E.
  - eapply keys_dict_set_present; eauto.
  - rewrite dict_set_new by assumption. unfold keys. now rewrite map_app.
Qed.

Lemma NoDup_keys_dict_set (k : pykey) (v : pyval) (d : pydict) :
  NoDup (keys d) -> NoDup (keys (dict_set k v d)).
Proof.
  intros Hnd. rewrite keys_dict_set. unfold dict_mem.
  destruct (dict_get k d) eqn:E; [assumption|].
  apply dict_get_None in E.
  apply NoDup_app; [assumption | repeat constructor; simpl; tauto |].
  intros x Hx [<-|[]]. contradiction.
Qed.

Lemma In_keys_dict_set (k k' : pykey) (v : pyval) (d : pydict) :
  In k' (keys (dict_set k v d)) <-> k' = k \/ In k' (keys d).
Proof.
  rewrite keys_dict_set. unfold dict_mem.
  destruct (dict_get k d) eqn:E.
  - split; [tauto|]. intros [->|H]; [|assumption].
    eapply dict_get_In_keys; eauto.
  - rewrite in_app_iff. simpl. intuition congruence.
Qed.


Lemma NoDup_keys_dict_update (d other : pydict) :
  NoDup (keys d) -> NoDup (keys (dict_update d other)).
Proof.
  unfold dict_update. revert d.
  induction other as [|[k v] other IH]; intros d Hnd; simpl; [assumption|].
  apply IH. now apply NoDup_keys_dict_set.
Qed.

Lemma NoDup_keys_dict_update_seq (seq : list pyval) (d : pydict) :
  NoDup (keys d) -> NoDup (keys (fst (dict_update_seq d seq))).
Proof.
  revert d. induction seq as [|item seq IH]; intros d Hnd; simpl; [assumption|].
  destruct (pair_of_item item) as [e|[k v]]; simpl; [assumption|].
  apply IH. now apply NoDup_keys_dict_set.
Qed.

Lemma NoDup_keys_py_update (d : pydict) (x : pyval) :
  NoDup (keys d) -> NoDup (keys (fst (py_update d x))).
Proof.
  intros Hnd. destruct x as [| | | |s|l|o]; simpl; try assumption.
  - destruct s; assumption.
  - now apply NoDup_keys_dict_update_seq.
  - now apply NoDup_keys_dict_update.
Qed.

End DictFacts.

(** ** Facts about the merge loop *)

Section LoopFacts.

Lemma merge_entry_data file k v m :
  fst (fst (merge_entry file k v m)) = absorb m k v.
Proof.
  unfold merge_entry, absorb, merged_with.
  destruct (dict_get k m) eqn:G; [|reflexivity].
  destruct (printable_key k).
  - now destruct (merge_references p v).
  - cbn [fst]. symmetry. now apply dict_set_same_value.
Qed.

Lemma merge_entry_exn file k v m :
  snd (merge_entry file k v m) =
  match dict_get k m with
  | Some existing =>
      if printable_key k then snd (merge_references existing v)
      else Some UnicodeEncodeError
  | None => None
  end.
Proof.
  unfold merge_entry. destruct (dict_get k m); [|reflexivity].
  destruct (printable_key k); [|reflexivity].
  now destruct (merge_references p v).
Qed.

Lemma merged_with_printable k existing v :
  printable_key k = true ->
  merged_with k existing v = fst (merge_references existing v).
Proof. unfold merged_with. now intros ->. Qed.

Lemma dict_get_absorb_same m k v :
  dict_get k (absorb m k v) =
  Some match dict_get k m with
       | Some existing => merged_with k existing v
       | None => v
       end.
Proof. unfold absorb. destruct (dict_get k m); apply dict_get_set_same. Qed.

Lemma dict_get_absorb_other m k k' v :
  k <> k' -> dict_get k' (absorb m k v) = dict_get k' m.
Proof.
  intros H. unfold absorb. destruct (dict_get k m); now apply dict_get_set_other.
Qed.

Lemma In_keys_absorb m k k' v :
  In k' (keys (absorb m k v)) <-> k' = k \/ In k' (keys m).
Proof. unfold absorb. destruct (dict_get k m); apply In_keys_dict_set. Qed.

Lemma NoDup_keys_absorb m k v :
  NoDup (keys m) -> NoDup (keys (absorb m k v)).
Proof. unfold absorb. destruct (dict_get k m); apply NoDup_keys_dict_set. Qed.

(** The loop over the items, unfolded one step. *)
Lemma merge_items_cons file k v rest m :
  merge_items file ((k, v) :: rest) m =
  match snd (merge_entry file k v m) with
  | Some e => merge_entry file k v m
  | None =>
      (fst (fst (merge_items file rest (absorb m k v))),
       snd (fst (merge_entry file k v m))
         ++ snd (fst (merge_items file rest (absorb m k v))),
       snd (merge_items file rest (absorb m k v)))
  end.
Proof.
  simpl. rewrite <- (merge_entry_data file k v m).
  destruct (merge_entry file k v m) as [[m' out] [e|]]; simpl; [reflexivity|].
  now destruct (merge_items file rest m') as [[m'' out'] e'].
Qed.

(** An identifier that the file does not hold keeps its entry. *)
Lemma merge_items_other file items m k :
  ~ In k (keys items) ->
  dict_get k (fst (fst (merge_items file items m))) = dict_get k m.
Proof.
  revert m. induction items as [|[k0 v0] rest IH]; intros m Hk; [reflexivity|].
  rewrite merge_items_cons. simpl in Hk.
  assert (Hne : k0 <> k) by tauto.
  destruct (snd (merge_entry file k0 v0 m)) eqn:E.
  - rewrite merge_entry_data. now apply dict_get_absorb_other.
  - cbn [fst]. rewrite IH by tauto. now apply dict_get_absorb_other.
Qed.

(** An identifier already merged keeps its entry, or, when the loop gets to
    it, has its references merged with those of the file's record. *)
Lemma merge_items_existing file items m k existing :
  NoDup (keys items) ->
  dict_get k m = Some existing ->
  dict_get k (fst (fst (merge_items file items m))) = Some existing \/
  exists v, dict_get k items = Some v /\
            dict_get k (fst (fst (merge_items file items m)))
            = Some (merged_with k existing v).
Proof.
  revert m. induction items as [|[k0 v0] rest IH]; intros m Hnd Hk.
  - now left.
  - rewrite merge_items_cons. inversion Hnd as [|? ? Hnotin Hnd']; subst.
    cbn [dict_get]. destruct (pykey_eq_dec k k0) as [->|Hne].
    + rewrite pykey_eqb_refl. right. exists v0. split; [reflexivity|].
      destruct (snd (merge_entry file k0 v0 m)).
      * rewrite merge_entry_data, dict_get_absorb_same. now rewrite Hk.
      * cbn [fst]. rewrite merge_items_other by assumption.
        rewrite dict_get_absorb_same. now rewrite Hk.
    + rewrite (pykey_eqb_neq Hne).
      destruct (snd (merge_entry file k0 v0 m)).
      * left. rewrite merge_entry_data.
        rewrite dict_get_absorb_other; auto.
      * cbn [fst]. apply IH; [assumption|].
        rewrite dict_get_absorb_other; auto.
Qed.

(** When the loop over a file's items raises nothing, every identifier of
    the file is merged. *)
Lemma merge_items_lookup file items m k v :
  NoDup (keys items) ->
  snd (merge_items file items m) = None ->
  dict_get k items = Some v ->
  dict_get k (fst (fst (merge_items file items m))) =
  Some match dict_get k m with
       | Some existing => merged_with k existing v
       | None => v
       end.
Proof.
  revert m. induction items as [|[k0 v0] rest IH]; intros m Hnd Hnone Hk;
    [discriminate|].
  rewrite merge_items_cons in Hnone |- *.
  inversion Hnd as [|? ? Hnotin Hnd']; subst.
  destruct (snd (merge_entry file k0 v0 m)) eqn:E.
  - rewrite E in Hnone. discriminate.
  - cbn [fst snd] in Hnone |- *. cbn [dict_get] in Hk.
    destruct (pykey_eq_dec k k0) as [->|Hne].
    + rewrite pykey_eqb_refl in Hk. injection Hk as ->.
      rewrite merge_items_other by assumption. apply dict_get_absorb_same.
    + rewrite (pykey_eqb_neq Hne) in Hk.
      rewrite IH by assumption.
      rewrite dict_get_absorb_other; auto.
Qed.

Lemma merge_items_keys file items m k :
  In k (keys (fst (fst (merge_items file items m)))) ->
  In k (keys m) \/ In k (keys items).
Proof.
  revert m. induction items as [|[k0 v0] rest IH]; intros m; [now left|].
  rewrite merge_items_cons.
  destruct (snd (merge_entry file k0 v0 m)).
  - rewrite merge_entry_data, In_keys_absorb. simpl. intuition.
  - cbn [fst]. intros H. apply IH in H. rewrite In_keys_absorb in H.
    simpl. intuition.
Qed.

Lemma merge_items_keeps_keys file items m k :
  In k (keys m) -> In k (keys (fst (fst (merge_items file items m)))).
Proof.
  revert m. induction items as [|[k0 v0] rest IH]; intros m Hk; [assumption|].
  rewrite merge_items_cons.
  destruct (snd (merge_entry file k0 v0 m)).
  - rewrite merge_entry_data, In_keys_absorb. now right.
  - cbn [fst]. apply IH. rewrite In_keys_absorb. now right.
Qed.

Lemma merge_items_NoDup file items m :
  NoDup (keys m) -> NoDup (keys (fst (fst (merge_items file items m)))).
Proof.
  revert m. induction items as [|[k0 v0] rest IH]; intros m Hnd; [assumption|].
  rewrite merge_items_cons.
  destruct (snd (merge_entry file k0 v0 m)).
  - rewrite merge_entry_data. now apply NoDup_keys_absorb.
  - cbn [fst]. apply IH. now apply NoDup_keys_absorb.
Qed.

End LoopFacts.

(** ** The loop over the files *)

Section FileFacts.

Lemma merge_loop_data f rest m :
  fst (merge_loop (f :: rest) m) = fst (merge_loop rest (fst (process_file f m))).
Proof.
  cbn [merge_loop]. destruct (process_file f m) as [m' out]. cbn [fst].
  now destruct (merge_loop rest m') as [m'' out'].
Qed.

Lemma merge_loop_out f rest m :
  snd (merge_loop (f :: rest) m) =
  snd (process_file f m) ++ snd (merge_loop rest (fst (process_file f m))).
Proof.
  cbn [merge_loop]. destruct (process_file f m) as [m' out]. cbn [fst].
  now destruct (merge_loop rest m') as [m'' out'].
Qed.

Lemma process_file_data f m :
  fst (process_file f m) = fst (fst (merge_items (name f) (file_items f) m)).
Proof.
  unfold process_file, file_items.
  destruct (content f) as [[| | | | | |items]|e]; try reflexivity.
  now destruct (merge_items (name f) items m) as [[m' out] [e|]].
Qed.


Lemma merge_loop_app l1 l2 m :
  fst (merge_loop (l1 ++ l2) m) = fst (merge_loop l2 (fst (merge_loop l1 m))).
Proof.
  revert m. induction l1 as [|f l1 IH]; intros m; [reflexivity|].
  rewrite <- app_comm_cons, !merge_loop_data. apply IH.
Qed.


Lemma merge_loop_NoDup l m :
  NoDup (keys m) -> NoDup (keys (fst (merge_loop l m))).
Proof.
  revert m. induction l as [|f l IH]; intros m H; [assumption|].
  rewrite merge_loop_data. apply IH. rewrite process_file_data.
  now apply merge_items_NoDup.
Qed.

Lemma merge_loop_keeps_keys l m k :
  In k (keys m) -> In k (keys (fst (merge_loop l m))).
Proof.
  revert m. induction l as [|f l IH]; intros m H; [assumption|].
  rewrite merge_loop_data. apply IH. rewrite process_file_data.
  now apply merge_items_keeps_keys.
Qed.

Lemma merge_loop_keys l m k :
  In k (keys (fst (merge_loop l m))) ->
  In k (keys m) \/ exists f, In f l /\ In k (keys (file_items f)).
Proof.
  revert m. induction l as [|f l IH]; intros m H; [now left|].
  rewrite merge_loop_data in H. apply IH in H. destruct H as [H|[g [Hg Hk]]].
  - rewrite process_file_data in H. apply merge_items_keys in H.
    destruct H as [H|H]; [now left|]. right. exists f. simpl. auto.
  - right. exists g. simpl. auto.
Qed.

(** A property of the entries that line 49 keeps is an invariant of the
    loop. *)
Section Invariant.

Variable P : pyval -> Prop.
Hypothesis P_merge :
  forall existing v, P existing -> P (fst (merge_references existing v)).

Lemma Forall_values_dict_set k v m :
  Forall P (values m) -> P v -> Forall P (values (dict_set k v m)).
Proof.
  intros Hm Hv. induction m as [|[k' v'] m IH]; simpl.
  - now repeat constructor.
  - inversion Hm; subst. destruct (pykey_eqb k k'); simpl; constructor; auto.
Qed.

Lemma Forall_values_get k v m :
  Forall P (values m) -> dict_get k m = Some v -> P v.
Proof.
  intros Hm Hk. apply dict_get_Some_In in Hk.
  rewrite Forall_forall in Hm. apply Hm. unfold values.
  change v with (snd (k, v)). now apply in_map.
Qed.

Lemma absorb_Forall m k v :
  Forall P (values m) -> P v -> Forall P (values (absorb m k v)).
Proof.
  intros Hm Hv. unfold absorb. destruct (dict_get k m) eqn:E.
  - apply Forall_values_dict_set; [assumption|].
    assert (Hp : P p) by (eapply Forall_values_get; eauto).
    unfold merged_with. destruct (printable_key k); [now apply P_merge|exact Hp].
  - now apply Forall_values_dict_set.
Qed.

Lemma merge_items_Forall file items m :
  Forall P (values m) -> Forall P (values items) ->
  Forall P (values (fst (fst (merge_items file items m)))).
Proof.
  revert m. induction items as [|[k v] rest IH]; intros m Hm Hi; [assumption|].
  rewrite merge_items_cons. inversion Hi; subst.
  destruct (snd (merge_entry file k v m)).
  - rewrite merge_entry_data. now apply absorb_Forall.
  - cbn [fst]. apply IH; [|assumption]. now apply absorb_Forall.
Qed.


End Invariant.

End FileFacts.

(** ** Sorting the files by name *)

Section SortFacts.

Lemma pystr_ltb_asym a b : pystr_ltb a b = true -> pystr_ltb b a = false.
Proof.
  revert b. induction a as [|x a IH]; intros [|y b]; simpl; try congruence.
  destruct (N.ltb_spec x y), (N.ltb_spec y x); try lia; try congruence.
  apply IH.
Qed.

Lemma pystr_ltb_total a b :
  a <> b -> pystr_ltb a b = true \/ pystr_ltb b a = true.
Proof.
  revert b. induction a as [|x a IH]; intros [|y b] Hne; simpl; auto;
    try congruence.
  destruct (N.ltb_spec x y), (N.ltb_spec y x); auto; try lia.
  assert (x = y) by lia. subst y. apply IH. congruence.
Qed.

(** [b <= g] and [g < a] give [b < a]. *)
Lemma pystr_ltb_le_lt g a b :
  pystr_ltb g b = false -> pystr_ltb g a = true -> pystr_ltb b a = true.
Proof.
  revert a b. induction g as [|x g IH]; intros [|y a] [|z b]; simpl;
    try congruence.
  destruct (N.ltb_spec x z), (N.ltb_spec z x), (N.ltb_spec x y),
    (N.ltb_spec y x), (N.ltb_spec z y), (N.ltb_spec y z);
    try lia; try congruence.
  apply IH.
Qed.

Lemma insert_sorted_comm a b l :
  name a <> name b ->
  insert_sorted a (insert_sorted b l) = insert_sorted b (insert_sorted a l).
Proof.
  intros Hne. induction l as [|g l IH]; simpl.
  - destruct (pystr_ltb_total Hne) as [H|H]; rewrite H;
      now rewrite (pystr_ltb_asym _ _ H).
  - destruct (pystr_ltb (name g) (name a)) eqn:Ea,
             (pystr_ltb (name g) (name b)) eqn:Eb; simpl;
      rewrite ?Ea, ?Eb.
    + now rewrite IH.
    + now rewrite (pystr_ltb_le_lt _ _ _ Eb Ea).
    + now rewrite (pystr_ltb_le_lt _ _ _ Ea Eb).
    + destruct (pystr_ltb_total Hne) as [H|H]; rewrite H;
        rewrite (pystr_ltb_asym _ _ H); simpl; now rewrite ?Ea, ?Eb.
Qed.

Lemma insert_sorted_perm f l : Permutation (insert_sorted f l) (f :: l).
Proof.
  induction l as [|g l IH]; simpl; [reflexivity|].
  destruct (pystr_ltb (name g) (name f)); [|reflexivity].
  rewrite IH. apply perm_swap.
Qed.

Lemma sorted_perm l : Permutation (sorted l) l.
Proof.
  induction l as [|f l IH]; simpl; [reflexivity|].
  rewrite insert_sorted_perm. now constructor.
Qed.

Lemma sorted_In f l : In f (sorted l) <-> In f l.
Proof.
  split; apply Permutation_in; [|symmetry]; apply sorted_perm.
Qed.

Lemma sorted_length l : length (sorted l) = length l.
Proof. apply Permutation_length, sorted_perm. Qed.

(** Files with distinct names come out in one order, whatever the order in
    which the directory lists them. *)
Lemma sorted_order_independent l1 l2 :
  NoDup (map name l1) -> Permutation l1 l2 -> sorted l1 = sorted l2.
Proof.
  intros Hnd Hp. induction Hp as [|x l l' Hp IH|x y l|l l' l'' Hp1 IH1 Hp2 IH2].
  - reflexivity.
  - simpl. inversion Hnd; subst. now rewrite IH.
  - simpl. apply insert_sorted_comm.
    inversion Hnd as [|? ? Hnotin _]; subst. simpl in Hnotin.
    intros E. apply Hnotin. left. congruence.
  - rewrite IH1 by assumption. apply IH2.
    eapply Permutation_NoDup; [|exact Hnd]. now apply Permutation_map.
Qed.









End SortFacts.

(** ** Facts about verse records *)

Section RecordFacts.

Lemma unique_keys_NoDup ks : unique_keys ks = true <-> NoDup ks.
Proof.
  induction ks as [|k ks IH]; simpl.
  - split; [constructor | reflexivity].
  - rewrite andb_true_iff, negb_true_iff, IH. split.
    + intros [Hex Hnd]. constructor; [|assumption].
      intros Hin. assert (existsb (pykey_eqb k) ks = true); [|congruence].
      apply existsb_exists. exists k. split; [assumption|apply pykey_eqb_refl].
    + intros H. inversion H as [|? ? Hnotin Hnd]; subst. split; [|assumption].
      destruct (existsb (pykey_eqb k) ks) eqn:E; [|reflexivity].
      apply existsb_exists in E. destruct E as [k' [Hin Heq]].
      apply pykey_eqb_true in Heq. subst k'. contradiction.
Qed.


(** Line 49 either leaves the entry alone or replaces its ['r'], a
    dictionary, by the updated dictionary. *)
Lemma merge_references_shape existing v :
  fst (merge_references existing v) = existing \/
  exists fields refs new_refs,
    existing = PDict fields /\
    dict_get (KStr key_r) fields = Some (PDict refs) /\
    py_getitem v key_r = inr new_refs /\
    fst (merge_references existing v)
    = PDict (dict_set (KStr key_r) (PDict (fst (py_update refs new_refs)))
                      fields).
Proof.
  unfold merge_references.
  destruct (py_contains key_r v) as [e|[|]]; [now left| |now left].
  destruct (py_contains key_r existing) as [e|[|]]; [now left| |now left].
  destruct existing as [| | | | | |fields]; try now left.
  destruct (dict_get (KStr key_r) fields) as [[| | | | | |refs]|] eqn:E;
    try now left.
  destruct (py_getitem v key_r) as [e|new_refs] eqn:G; [now left|].
  right. exists fields, refs, new_refs.
  repeat split; try assumption.
  now destruct (py_update refs new_refs).
Qed.

(** Between two objects, line 48 looks up ['r'] in both. *)
Lemma merge_references_objects fields fields' :
  merge_references (PDict fields) (PDict fields') =
  match dict_get (KStr key_r) fields', dict_get (KStr key_r) fields with
  | Some new_refs, Some (PDict refs) =>
      (PDict (dict_set (KStr key_r) (PDict (fst (py_update refs new_refs)))
                       fields),
       snd (py_update refs new_refs))
  | Some _, Some _ => (PDict fields, Some AttributeError)
  | _, _ => (PDict fields, None)
  end.
Proof.
  unfold merge_references, py_contains, py_getitem, dict_mem.
  destruct (dict_get (KStr key_r) fields') as [new_refs|]; [|reflexivity].
  destruct (dict_get (KStr key_r) fields) as [[| | | | | |refs]|];
    try reflexivity.
  now destruct (py_update refs new_refs).
Qed.

Lemma merge_references_lacks_r existing v :
  lacks_r existing = true \/ lacks_r v = true ->
  fst (merge_references existing v) = existing.
Proof.
  unfold lacks_r, merge_references. intros [H|H].
  - destruct existing as [| | | | | |fields]; try discriminate.
    destruct (py_contains key_r v) as [e|[|]]; try reflexivity.
    simpl. apply negb_true_iff in H. now rewrite H.
  - destruct v as [| | | | | |fields]; try discriminate.
    simpl. apply negb_true_iff in H. now rewrite H.
Qed.

Lemma verse_record_merge existing v :
  verse_record existing = true ->
  verse_record (fst (merge_references existing v)) = true.
Proof.
  intros H. destruct (merge_references_shape existing v)
    as [->|(fields & refs & new_refs & -> & Hr & _ & ->)]; [assumption|].
  simpl in H |- *. rewrite Hr in H. rewrite dict_get_set_same.
  apply unique_keys_NoDup, NoDup_keys_py_update. now apply unique_keys_NoDup.
Qed.

Lemma verse_record_no_exception existing v :
  verse_record existing = true -> verse_record v = true ->
  snd (merge_references existing v) = None.
Proof.
  destruct existing as [| | | | | |fields]; try discriminate.
  destruct v as [| | | | | |fields']; try discriminate.
  rewrite merge_references_objects. simpl.
  destruct (dict_get (KStr key_r) fields') as [[| | | | | |new_refs]|];
    try discriminate; try reflexivity.
  destruct (dict_get (KStr key_r) fields) as [[| | | | | |refs]|];
    try discriminate; reflexivity.
Qed.


End RecordFacts.

(** ** The merge of files of the data model *)

Section ModelFacts.

Lemma forallb_Forall_values (p : pyval -> bool) (d : pydict) :
  forallb p (values d) = true -> Forall (fun v => p v = true) (values d).
Proof. intros H. apply Forall_forall. now apply forallb_forall. Qed.

Lemma data_model_records f :
  data_model f = true ->
  Forall (fun v => verse_record v = true) (values (file_items f)).
Proof.
  unfold data_model. rewrite andb_true_iff. intros [_ H].
  now apply forallb_Forall_values.
Qed.

Lemma data_model_NoDup f :
  data_model f = true -> NoDup (keys (file_items f)).
Proof.
  unfold data_model. rewrite andb_true_iff. intros [H _].
  now apply unique_keys_NoDup.
Qed.

Lemma printable_ids_key f k :
  printable_ids f = true -> In k (keys (file_items f)) ->
  printable_key k = true.
Proof. unfold printable_ids. rewrite forallb_forall. auto. Qed.

(** Between verse records whose identifiers can be printed the loop over
    the items raises nothing. *)
Lemma merge_items_no_exception file items m :
  Forall (fun v => verse_record v = true) (values m) ->
  Forall (fun v => verse_record v = true) (values items) ->
  forallb printable_key (keys items) = true ->
  snd (merge_items file items m) = None.
Proof.
  revert m.
  induction items as [|[k v] rest IH]; intros m Hm Hi Hp; [reflexivity|].
  inversion Hi; subst. rewrite merge_items_cons.
  cbn [keys map fst forallb] in Hp. apply andb_true_iff in Hp.
  destruct Hp as [Hk Hp].
  assert (E : snd (merge_entry file k v m) = None).
  { rewrite merge_entry_exn, Hk. destruct (dict_get k m) eqn:G; [|reflexivity].
    apply verse_record_no_exception; [|assumption].
    apply (Forall_values_get k m Hm G). }
  rewrite E. cbn [snd]. apply IH; [|assumption|assumption].
  apply absorb_Forall; auto. intros; now apply verse_record_merge.
Qed.


(** The entry of an identifier after the loop: the first record met, with
    the later records merged into it one after the other. *)
Lemma merge_loop_lookup l m k :
  Forall (fun v => verse_record v = true) (values m) ->
  Forall (fun f => data_model f = true) l ->
  Forall (fun f => printable_ids f = true) l ->
  dict_get k (fst (merge_loop l m)) =
  match dict_get k m with
  | Some existing => Some (fold_left combine (occurrences k l) existing)
  | None =>
      match occurrences k l with
      | [] => None
      | first :: later => Some (fold_left combine later first)
      end
  end.
Proof.
  revert m. induction l as [|f l IH]; intros m Hm Hl Hp.
  - simpl. now destruct (dict_get k m).
  - inversion Hl as [|? ? Hf Hl']; subst.
    inversion Hp as [|? ? Hpf Hp']; subst.
    rewrite merge_loop_data, IH;
      [|rewrite process_file_data|assumption|assumption].
    2:{ apply merge_items_Forall; [intros; now apply verse_record_merge
                                  | assumption | now apply data_model_records]. }
    rewrite process_file_data. cbn [occurrences flat_map].
    fold (occurrences k l).
    destruct (dict_get k (file_items f)) as [v|] eqn:G.
    + rewrite (merge_items_lookup (name f) (file_items f) m k (v := v));
        [ | now apply data_model_NoDup
          | apply merge_items_no_exception;
            [assumption|now apply data_model_records|exact Hpf]
          | assumption ].
      assert (Hk : printable_key k = true).
      { eapply printable_ids_key; [exact Hpf|].
        eapply dict_get_In_keys; exact G. }
      simpl. destruct (dict_get k m); [|reflexivity].
      now rewrite merged_with_printable.
    + rewrite merge_items_other by (now apply dict_get_None).
      reflexivity.
Qed.

(** Identifiers that are all new and all distinct are appended as they
    come, and nothing is raised. *)
Lemma merge_items_disjoint file items m :
  NoDup (keys m ++ keys items) ->
  merge_items file items m = (m ++ items, [], None).
Proof.
  revert m. induction items as [|[k v] rest IH]; intros m Hnd.
  - simpl. now rewrite app_nil_r.
  - assert (G : dict_get k m = None).
    { apply dict_get_None. intros Hin. simpl in Hnd.
      apply NoDup_remove_2 in Hnd. apply Hnd. apply in_or_app. now left. }
    simpl. unfold merge_entry. rewrite G.
    rewrite dict_set_new by assumption.
    rewrite IH.
    + now rewrite <- app_assoc.
    + unfold keys in *. rewrite map_app, <- app_assoc. exact Hnd.
Qed.


End ModelFacts.

(** ** The function as a whole *)

Section WholeFacts.

(** [merge_json_files] returns the dictionary of the loop, unless line 59
    raises. *)
Lemma merge_json_files_returned globbed w :
  returned (merge_json_files globbed w) =
  match sum_references (values (merged_after_loop globbed)) with
  | inr _ => Some (merged_after_loop globbed)
  | inl _ => None
  end.
Proof.
  unfold merge_json_files, merged_after_loop.
  destruct (sorted globbed) as [|f l]; [reflexivity|].
  cbn [length Nat.eqb].
  destruct (merge_loop (f :: l) []) as [m out]. cbn [fst].
  destruct (sum_references (values m)); [reflexivity|].
  now destruct w.
Qed.



Lemma merge_items_events file items m :
  Forall loop_event (snd (fst (merge_items file items m))).
Proof.
  revert m. induction items as [|[k v] rest IH]; intros m; [constructor|].
  rewrite merge_items_cons.
  assert (H : Forall loop_event (snd (fst (merge_entry file k v m)))).
  { unfold merge_entry. destruct (dict_get k m); [|constructor].
    destruct (printable_key k); [|constructor].
    destruct (merge_references p v). repeat constructor. }
  destruct (snd (merge_entry file k v m)); [assumption|].
  cbn [fst snd]. apply Forall_app. split; [assumption|apply IH].
Qed.

Lemma merge_loop_events l m : Forall loop_event (snd (merge_loop l m)).
Proof.
  revert m. induction l as [|f l IH]; intros m; [constructor|].
  rewrite merge_loop_out. apply Forall_app. split; [|apply IH].
  unfold process_file.
  destruct (content f) as [[| | | | | |items]|e]; try (repeat constructor).
  pose proof (merge_items_events (name f) items m) as H.
  destruct (merge_items (name f) items m) as [[m' out] [e|]]; cbn [fst snd] in *.
  - constructor; [exact I|]. apply Forall_app. split; [assumption|].
    repeat constructor.
  - constructor; [exact I|assumption].
Qed.

End WholeFacts.

(** ** Properties of the merge *)

Lemma occurrences_In k l f v :
  In f l -> dict_get k (file_items f) = Some v -> In v (occurrences k l).
Proof.
  intros Hin Hk. unfold occurrences. apply in_flat_map.
  exists f. split; [assumption|]. rewrite Hk. now left.
Qed.


(** C7: when the directory holds no [.json] file, the merge returns an empty
    mapping, raises nothing and does not try to write the output file; the
    analysis then reports that there is no data. *)
Theorem empty_directory_gives_empty_mapping (w : write_outcome) :
  merge_json_files [] w = Returns [] [Found 0; NoJsonFiles] /\
  (forall data, ~ In (WriteAttempt data) (printed (merge_json_files [] w))) /\
  main [] w
  = Returns tt [Banner; Found 0; NoJsonFiles; NoDataToAnalyze; Complete].
Proof.
  repeat split. intros data [H|[H|[]]]; discriminate.
Qed.

(** C9: the merge is a function of the names and contents of the files: two
    runs over the same files, listed by the directory in any two orders,
    give the same combined mapping (and the same output altogether), since
    the files are processed in the order of their names. *)
Theorem merge_is_deterministic (globbed1 globbed2 : list json_file)
    (w : write_outcome) :
  NoDup (map name globbed1) ->
  Permutation globbed1 globbed2 ->
  merged_after_loop globbed1 = merged_after_loop globbed2 /\
  merge_json_files globbed1 w = merge_json_files globbed2 w /\
  main globbed1 w = main globbed2 w.
Proof.
  intros Hnd Hp. unfold merged_after_loop, main, merge_json_files.
  now rewrite (sorted_order_independent Hnd Hp).
Qed.



(** C8: when the write of the output file fails, [merge_json_files] still
    returns the combined mapping as the loop built it, the same mapping as
    when the write succeeds, and the analysis runs on it. *)
Theorem failed_write_keeps_result (globbed : list json_file) (e : pyexn) :
  In (ErrorSaving e) (printed (merge_json_files globbed (WriteFails e))) ->
  returned (merge_json_files globbed (WriteFails e))
  = Some (merged_after_loop globbed) /\
  returned (merge_json_files globbed WriteOk)
  = Some (merged_after_loop globbed) /\
  exists out,
    merge_json_files globbed (WriteFails e)
    = Returns (merged_after_loop globbed) out /\
    main globbed (WriteFails e)
    = match analyze_data (merged_after_loop globbed) with
      | Raises e' out' => Raises e' (Banner :: out ++ out')
      | Returns _ out' => Returns tt (Banner :: out ++ out' ++ [Complete])
      end.
Proof.
  unfold main, merge_json_files, merged_after_loop.
  destruct (sorted globbed) as [|f l].
  - simpl. intros [H|[H|[]]]; discriminate.
  - cbn [length Nat.eqb].
    pose proof (merge_loop_events (f :: l) []) as Hev.
    destruct (merge_loop (f :: l) []) as [m out]. cbn [fst snd] in *.
    destruct (sum_references (values m)) as [e'|n].
    + simpl. intros [H|H]; [discriminate|].
      rewrite Forall_forall in Hev. destruct (Hev _ H).
    + intros _. repeat split. eexists. split; reflexivity.
Qed.

Lemma pystr_ltb_irrefl a : pystr_ltb a a = false.
Proof.
  destruct (pystr_ltb a a) eqn:E; [|reflexivity].
  now rewrite (pystr_ltb_asym _ _ E) in E.
Qed.

Lemma sorted_pair globbed fa fb :
  pystr_ltb (name fa) (name fb) = true ->
  Permutation globbed [fa; fb] ->
  sorted globbed = [fa; fb].
Proof.
  intros Hlt Hp.
  assert (Hnd : NoDup (map name [fa; fb])).
  { repeat constructor; simpl; [|tauto]. intros [E|[]].
    rewrite E, pystr_ltb_irrefl in Hlt. discriminate. }
  rewrite <- (sorted_order_independent Hnd (Permutation_sym Hp)).
  simpl. now rewrite (pystr_ltb_asym _ _ Hlt).
Qed.



(** C5: when two files hold the same verse identifier and the record of
    one of them has no ['r'], the entry that the first file (in the order
    of the names) gave to this identifier is in the combined mapping as it
    was, its own ['r'] included; nothing of it is overwritten. *)
Theorem entry_without_refs_is_kept (globbed : list json_file)
    (fa fb : json_file) (da db : pydict) (k : pykey) (ra rb : pyval) :
  Permutation globbed [fa; fb] ->
  pystr_ltb (name fa) (name fb) = true ->
  content fa = Loaded (PDict da) -> content fb = Loaded (PDict db) ->
  unique_keys (keys da) = true -> unique_keys (keys db) = true ->
  dict_get k da = Some ra -> dict_get k db = Some rb ->
  lacks_r ra = true \/ lacks_r rb = true ->
  dict_get k (merged_after_loop globbed) = Some ra /\
  (forall w merged, returned (merge_json_files globbed w) = Some merged ->
                    dict_get k merged = Some ra).
Proof.
  intros Hp Hlt Ha Hb Hua Hub Hka Hkb Hlacks.
  assert (E : dict_get k (merged_after_loop globbed) = Some ra).
  { unfold merged_after_loop. rewrite (sorted_pair Hlt Hp).
    rewrite !merge_loop_data. cbn [merge_loop fst].
    rewrite !process_file_data. unfold file_items. rewrite Ha, Hb.
    rewrite (@merge_items_disjoint (name fa) da [])
      by (simpl; now apply (proj1 (unique_keys_NoDup (keys da)))).
    cbn [fst app].
    destruct (@merge_items_existing (name fb) db da k ra) as [H|[v [Hv H]]];
      [now apply (proj1 (unique_keys_NoDup (keys db))) | assumption
      | assumption |].
    rewrite H. rewrite Hkb in Hv. injection Hv as <-.
    unfold merged_with. destruct (printable_key k); [|reflexivity].
    now rewrite merge_references_lacks_r. }
  split; [exact E|].
  intros w merged. rewrite merge_json_files_returned.
  destruct (sum_references _); [discriminate|]. now intros [= <-].
Qed.

(** ** The merged entry of an identifier *)

Section EntryFacts.









End EntryFacts.


(** ** Properties of the analysis and of the script *)

Section AnalysisFacts.

Lemma has_word_skip_spaces s : has_word s = true -> skip_spaces s <> [].
Proof.
  induction s as [|c s IH]; simpl; [discriminate|].
  destruct (is_space c); simpl; [exact IH|discriminate].
Qed.

Lemma split_first_has_word s :
  has_word s = true -> split_first s = inr (take_word (skip_spaces s)).
Proof.
  intros H. apply has_word_skip_spaces in H. unfold split_first.
  now destruct (skip_spaces s).
Qed.








End AnalysisFacts.

Section TallyFacts.

Lemma count_of_count_book book b books :
  count_of book (count_book b books)
  = count_of book books + (if pystr_eq_dec book b then 1 else 0).
Proof.
  unfold count_of. induction books as [|[b0 n] books IH]; simpl.
  - now destruct (pystr_eq_dec book b).
  - destruct (pystr_eq_dec b b0) as [->|Hne]; simpl.
    + destruct (pystr_eq_dec book b0); simpl; lia.
    + destruct (pystr_eq_dec book b0) as [->|Hne']; simpl; [|exact IH].
      destruct (pystr_eq_dec b0 b); [congruence|lia].
Qed.

Lemma tally_verse_counts v books :
  analyzable v = true ->
  tally_verse v books
  = inr match book_of v with
        | Some b => count_book b books
        | None => books
        end.
Proof.
  destruct v as [| | | | | |fields]; try discriminate. simpl.
  rewrite andb_true_iff. intros [_ Hv]. unfold tally_verse. simpl.
  destruct (dict_get (KStr key_v) fields) as [[|b|z|f|s|l|d]|]; simpl in *;
    try (rewrite negb_true_iff in Hv; rewrite Hv); try reflexivity.
  destruct s as [|c s]; [reflexivity|].
  now rewrite (split_first_has_word _ Hv).
Qed.

Lemma tally_counts vs : forall books,
  Forall (fun v => analyzable v = true) vs ->
  exists books',
    tally vs books = inr books' /\
    forall book, count_of book books'
                 = count_of book books
                   + length (filter (counted_under book) vs).
Proof.
  induction vs as [|v vs IH]; intros books H; simpl.
  - exists books. split; [reflexivity|]. intros; lia.
  - inversion H as [|? ? Hv Hvs]; subst.
    rewrite (@tally_verse_counts v books Hv).
    destruct (IH (match book_of v with
                  | Some b => count_book b books
                  | None => books
                  end) Hvs) as (books' & -> & Hc).
    exists books'. split; [reflexivity|]. intros book. rewrite Hc.
    unfold counted_under at 2. destruct (book_of v) as [b|]; [|reflexivity].
    rewrite count_of_count_book.
    destruct (pystr_eq_dec book b); simpl; lia.
Qed.

(** Where the analysis does not raise, it counts under each book the
    verses whose ['v'] is a non-empty string with this book as first word,
    and no other verse. *)
Lemma book_tally_counts merged :
  Forall (fun v => analyzable v = true) (values merged) ->
  exists books,
    book_tally merged = inr books /\
    forall book, count_of book books
                 = length (filter (counted_under book) (values merged)).
Proof.
  intros H. destruct (@tally_counts _ [] H) as (books & E & Hc).
  exists books. split; [exact E|]. intros book. now rewrite Hc.
Qed.

End TallyFacts.

Section PrintFacts.









End PrintFacts.


(** C3 fails on the code: a ['v'] made of whitespace passes the test of
    line 90, [split()] gives no word, and line 91 raises [IndexError]
    instead of leaving the verse out of the tally. *)
Theorem blank_reference_raises :
  analyze_data blank_ref_mapping = Raises IndexError [] /\
  book_tally blank_ref_mapping = inl IndexError /\
  exit_status
    (main [JsonFile (lit "blank.json") (Loaded (PDict blank_ref_mapping))]
          WriteOk) = 1.
Proof. repeat split. Qed.

(** ** Further properties of the merge *)

Section KeyedInvariant.

(** A property of an identifier and its entry that line 49 keeps and that
    the records of the file have is kept by the loop over the file's
    items, exceptions or not. *)
Variable I : pykey -> pyval -> Prop.
Hypothesis I_merge :
  forall k existing v, I k existing -> I k (fst (merge_references existing v)).

Lemma absorb_keyed m k v :
  (forall k' e, dict_get k' m = Some e -> I k' e) -> I k v ->
  forall k' e, dict_get k' (absorb m k v) = Some e -> I k' e.
Proof.
  intros Hm Hv k' e. destruct (pykey_eq_dec k k') as [<-|Hne].
  - rewrite dict_get_absorb_same. intros [= <-].
    destruct (dict_get k m) eqn:G; [|assumption]. unfold merged_with.
    destruct (printable_key k); [apply I_merge|]; eauto.
  - rewrite dict_get_absorb_other by assumption. apply Hm.
Qed.

Lemma merge_items_keyed file items m :
  (forall k e, dict_get k m = Some e -> I k e) ->
  (forall k v, In (k, v) items -> I k v) ->
  forall k e, dict_get k (fst (fst (merge_items file items m))) = Some e ->
              I k e.
Proof.
  revert m. induction items as [|[k0 v0] rest IH]; intros m Hm Hi;
    [exact Hm|].
  rewrite merge_items_cons.
  assert (Ha : forall k e, dict_get k (absorb m k0 v0) = Some e -> I k e).
  { apply absorb_keyed; [assumption|]. apply Hi. now left. }
  destruct (snd (merge_entry file k0 v0 m)).
  - now rewrite merge_entry_data.
  - cbn [fst]. apply IH; [assumption|]. intros; apply Hi; now right.
Qed.

Lemma merge_loop_keyed l m :
  (forall k e, dict_get k m = Some e -> I k e) ->
  (forall f k v, In f l -> In (k, v) (file_items f) -> I k v) ->
  forall k e, dict_get k (fst (merge_loop l m)) = Some e -> I k e.
Proof.
  revert m. induction l as [|f l IH]; intros m Hm Hl; [exact Hm|].
  rewrite merge_loop_data. apply IH.
  - rewrite process_file_data. apply merge_items_keyed; [assumption|].
    intros k v. apply Hl. now left.
  - intros g k v Hg. apply Hl. now right.
Qed.

End KeyedInvariant.

Section UpdateKeys.

Lemma In_keys_dict_update d other x :
  In x (keys d) -> In x (keys (dict_update d other)).
Proof.
  unfold dict_update. revert d.
  induction other as [|[k v] other IH]; intros d H; simpl; [assumption|].
  apply IH. apply In_keys_dict_set. now right.
Qed.

Lemma In_keys_dict_update_seq seq d x :
  In x (keys d) -> In x (keys (fst (dict_update_seq d seq))).
Proof.
  revert d. induction seq as [|item seq IH]; intros d H; simpl; [assumption|].
  destruct (pair_of_item item) as [e|[k v]]; simpl; [assumption|].
  apply IH. apply In_keys_dict_set. now right.
Qed.

(** [d.update(x)] removes no key, even when it raises half-way. *)
Lemma In_keys_py_update d new x :
  In x (keys d) -> In x (keys (fst (py_update d new))).
Proof.
  intros H. destruct new as [| | | |s|l|o]; simpl; try assumption.
  - now destruct s.
  - now apply In_keys_dict_update_seq.
  - now apply In_keys_dict_update.
Qed.

Lemma derived_from_refl v : derived_from v v.
Proof. repeat split; eauto. Qed.

Lemma derived_from_merge record entry v :
  derived_from record entry ->
  derived_from record (fst (merge_references entry v)).
Proof.
  intros (Hf & Hn & Hk).
  destruct (merge_references_shape entry v)
    as [->|(fields & refs & new_refs & -> & Hr & _ & ->)];
    [repeat split; assumption|].
  assert (Hrefs : refs_of (PDict fields) = Some refs)
    by (simpl; now rewrite Hr).
  split; [|split].
  - intros fld Hfld. rewrite <- (Hf fld Hfld). simpl.
    apply dict_get_set_other. congruence.
  - intros Hnone. rewrite <- (Hn Hnone) in Hnone. congruence.
  - intros refs0 x Hr0 Hx. destruct (Hk refs0 x Hr0 Hx) as (refs' & E & Hx').
    rewrite Hrefs in E. injection E as <-.
    eexists. split.
    + simpl. rewrite dict_get_set_same. reflexivity.
    + now apply In_keys_py_update.
Qed.

End UpdateKeys.

(** X1: whatever the files hold, no verse identifier is twice in the
    combined mapping and every identifier of the combined mapping is an
    identifier of some decoded object file. *)
Theorem combined_identifiers_unique_and_from_files
    (globbed : list json_file) :
  NoDup (keys (merged_after_loop globbed)) /\
  forall k, In k (keys (merged_after_loop globbed)) ->
            exists f, In f globbed /\ In k (keys (file_items f)).
Proof.
  unfold merged_after_loop. split.
  - apply merge_loop_NoDup. constructor.
  - intros k Hk. apply merge_loop_keys in Hk.
    destruct Hk as [Hk|(f & Hf & Hk)]; [destruct Hk|].
    exists f. split; [|assumption].
    now apply (proj1 (sorted_In f globbed)).
Qed.

(** X2: whatever the files hold, every entry of the combined mapping is
    the record that some file has for this identifier, with at most its
    ['r'] dictionary changed: the fields other than ['r'] are never
    overwritten, a record without an ['r'] dictionary is kept as it is, and
    no key is ever removed from an ['r']. *)
Theorem combined_entry_derived_from_a_record (globbed : list json_file)
    (k : pykey) (entry : pyval) :
  dict_get k (merged_after_loop globbed) = Some entry ->
  exists f record,
    In f globbed /\ In (k, record) (file_items f) /\
    derived_from record entry.
Proof.
  unfold merged_after_loop.
  apply (@merge_loop_keyed
           (fun k e => exists f record,
                In f globbed /\ In (k, record) (file_items f) /\
                derived_from record e)).
  - intros k0 existing v (f & record & Hf & Hin & Hd).
    exists f, record. repeat split; try assumption.
    + apply (derived_from_merge v Hd).
    + apply (derived_from_merge v Hd).
    + apply (derived_from_merge v Hd).
  - discriminate.
  - intros f k0 v Hf Hin. exists f, v.
    split; [now apply (proj1 (sorted_In f globbed))|].
    split; [assumption|apply derived_from_refl].
Qed.

(** What the function prints beside the lines of the loop. *)
Lemma merge_json_files_own_lines globbed w ev :
  ~ loop_event ev ->
  In ev (printed (merge_json_files globbed w)) <->
  ev = Found (length globbed) \/
  (globbed = [] /\ ev = NoJsonFiles) \/
  (globbed <> [] /\
   exists n, sum_references (values (merged_after_loop globbed)) = inr n /\
     (ev = MergeComplete (length (merged_after_loop globbed)) n \/
      ev = SavingTo \/
      ev = WriteAttempt (merged_after_loop globbed) \/
      match w with
      | WriteOk => ev = Done
      | WriteFails e => ev = ErrorSaving e
      end)).
Proof.
  intros Hev. unfold merge_json_files, merged_after_loop.
  rewrite sorted_length.
  destruct (sorted globbed) as [|f l] eqn:E.
  - apply (f_equal (@length _)) in E. rewrite sorted_length in E.
    destruct globbed; [|discriminate]. simpl. split.
    + intros [<-|[<-|[]]]; auto.
    + intros [->|[[_ ->]|[H _]]]; auto; congruence.
  - assert (Hne : globbed <> []) by (intros ->; discriminate).
    apply (f_equal (@length _)) in E. rewrite sorted_length in E.
    rewrite E. cbn [length Nat.eqb].
    pose proof (merge_loop_events (f :: l) []) as Hl.
    destruct (merge_loop (f :: l) []) as [m out]. cbn [fst snd] in *.
    rewrite Forall_forall in Hl.
    assert (Hout : ~ In ev out) by (intros H; exact (Hev (Hl _ H))).
    destruct (sum_references (values m)) as [e|n].
    + cbn [printed]. rewrite in_app_iff. simpl. split.
      * intros [[<-|[]]|H]; [now left|contradiction].
      * intros [->|[[H _]|(_ & n & H & _)]];
          [left; now left|contradiction|discriminate].
    + destruct w as [|e]; cbn [printed]; rewrite !in_app_iff; simpl; split.
      * intros [[[[<-|[]]|H]|[<-|[<-|[<-|[]]]]]|[<-|[]]];
          try contradiction; [now left|right; right; split; [assumption|]..];
          exists n; split; auto.
      * intros [->|[[H _]|(_ & n' & [= <-] & [->|[->|[->| ->]]])]];
          try contradiction; auto 10.
      * intros [[[[<-|[]]|H]|[<-|[<-|[<-|[]]]]]|[<-|[]]];
          try contradiction; [now left|right; right; split; [assumption|]..];
          exists n; split; auto.
      * intros [->|[[H _]|(_ & n' & [= <-] & [->|[->|[->| ->]]])]];
          try contradiction; auto 10.
Qed.

(** X3: the write of the output file is attempted exactly when there is at
    least one [.json] file and line 59 raises nothing, and what is given to
    [json.dump] is the mapping that the function returns; the file is
    written and its size printed exactly when, moreover, the write raises
    nothing, and a write that raises is reported with its exception. *)
Theorem output_written_iff_mapping_returned (globbed : list json_file)
    (w : write_outcome) (data : pydict) :
  (In (WriteAttempt data) (printed (merge_json_files globbed w)) <->
   globbed <> [] /\ returned (merge_json_files globbed w) = Some data) /\
  (In Done (printed (merge_json_files globbed w)) <->
   globbed <> [] /\ returned (merge_json_files globbed w) <> None /\
   w = WriteOk) /\
  (forall e,
     In (ErrorSaving e) (printed (merge_json_files globbed w)) <->
     globbed <> [] /\ returned (merge_json_files globbed w) <> None /\
     w = WriteFails e).
Proof.
  rewrite merge_json_files_returned.
  split; [|split; [|intros e]];
    rewrite merge_json_files_own_lines by (intros []);
    destruct (sum_references (values (merged_after_loop globbed)))
      as [e'|n]; split.
  - intros [H|[[_ H]|(_ & n & H & _)]]; discriminate.
  - intros [_ H]. discriminate.
  - intros [H|[[_ H]|(Hne & n' & _ & [H|[H|[H|H]]])]]; try discriminate.
    + injection H as ->. now split.
    + destruct w; discriminate.
  - intros [Hne [= <-]]. right. right. split; [assumption|].
    exists n. auto.
  - intros [H|[[_ H]|(_ & n & H & _)]]; discriminate.
  - intros (_ & H & _). congruence.
  - intros [H|[[_ H]|(Hne & n' & _ & [H|[H|[H|H]]])]]; try discriminate.
    destruct w; [|discriminate]. repeat split; [assumption|discriminate].
  - intros (Hne & _ & ->). right. right. split; [assumption|].
    exists n. auto 6.
  - intros [H|[[_ H]|(_ & n & H & _)]]; discriminate.
  - intros (_ & H & _). congruence.
  - intros [H|[[_ H]|(Hne & n' & _ & [H|[H|[H|H]]])]]; try discriminate.
    destruct w as [|e0]; [discriminate|]. injection H as ->.
    repeat split; [assumption|discriminate].
  - intros (Hne & _ & ->). right. right. split; [assumption|].
    exists n. auto 6.
Qed.

(** ** Further properties of the analysis and of the script *)

Section ExitFacts.





End ExitFacts.



Section HistogramFacts.

Lemma tally_verse_inr v books books' :
  tally_verse v books = inr books' ->
  books' = match book_of v with
           | Some b => count_book b books
           | None => books
           end.
Proof.
  destruct v as [| | | | | |fields]; try discriminate.
  unfold tally_verse, book_of. simpl.
  destruct (dict_get (KStr key_v) fields) as [[|b|z|f|s|l|d]|]; simpl;
    try (intros [= <-]; reflexivity).
  - destruct b; [discriminate|now intros [= <-]].
  - destruct (z =? 0)%Z; [now intros [= <-]|discriminate].
  - destruct f; try discriminate; now intros [= <-].
  - destruct s as [|c s]; [now intros [= <-]|].
    unfold split_first.
    change (if is_space c then skip_spaces s else c :: s)
      with (skip_spaces (c :: s)).
    destruct (skip_spaces (c :: s)); [discriminate|].
    now intros [= <-].
  - destruct l; [now intros [= <-]|discriminate].
  - destruct d; [now intros [= <-]|discriminate].
Qed.

Lemma In_count_book b books e :
  In e (count_book b books) ->
  (fst e = b /\ 1 <= snd e) \/ In e books.
Proof.
  induction books as [|[b0 n] books IH]; simpl.
  - intros [<-|[]]. left. simpl. auto.
  - destruct (pystr_eq_dec b b0) as [->|Hne]; simpl.
    + intros [<-|H]; [left; simpl; split; [reflexivity|lia]|auto].
    + intros [<-|H]; [auto|]. destruct (IH H); auto.
Qed.

Lemma names_count_book b books :
  map fst (count_book b books)
  = if in_dec pystr_eq_dec b (map fst books) then map fst books
    else map fst books ++ [b].
Proof.
  induction books as [|[b0 n] books IH]; simpl; [reflexivity|].
  destruct (pystr_eq_dec b b0) as [->|Hne]; simpl.
  - destruct (pystr_eq_dec b0 b0); [reflexivity|congruence].
  - rewrite IH. destruct (pystr_eq_dec b0 b); [congruence|].
    now destruct (in_dec pystr_eq_dec b (map fst books)).
Qed.

Lemma NoDup_names_count_book b books :
  NoDup (map fst books) -> NoDup (map fst (count_book b books)).
Proof.
  intros H. rewrite names_count_book.
  destruct (in_dec pystr_eq_dec b (map fst books)) as [Hin|Hnin];
    [assumption|].
  apply NoDup_app; [assumption | repeat constructor; simpl; tauto |].
  intros x Hx [<-|[]]. contradiction.
Qed.

Lemma tally_histogram vs : forall books books',
  tally vs books = inr books' ->
  NoDup (map fst books) -> Forall (fun e => 1 <= snd e) books ->
  NoDup (map fst books') /\ Forall (fun e => 1 <= snd e) books' /\
  forall book, count_of book books'
               = count_of book books
                 + length (filter (counted_under book) vs).
Proof.
  induction vs as [|v vs IH]; intros books books' Ht Hnd Hpos; simpl in Ht.
  - injection Ht as <-. repeat split; try assumption. intros; simpl; lia.
  - destruct (tally_verse v books) as [e|books1] eqn:E; [discriminate|].
    apply tally_verse_inr in E.
    assert (H1 : NoDup (map fst books1) /\
                 Forall (fun e => 1 <= snd e) books1).
    { subst books1. destruct (book_of v) as [b|]; [|now split].
      split; [now apply NoDup_names_count_book|].
      apply Forall_forall. intros e He.
      destruct (@In_count_book b books e He) as [[_ H]|H]; [assumption|].
      rewrite Forall_forall in Hpos. auto. }
    destruct (IH books1 books' Ht (proj1 H1) (proj2 H1)) as (Hn & Hp & Hc).
    repeat split; try assumption. intros book. rewrite Hc. subst books1.
    simpl. unfold counted_under at 2.
    destruct (book_of v) as [b|]; [|reflexivity].
    rewrite count_of_count_book.
    destruct (pystr_eq_dec book b); simpl; lia.
Qed.

Lemma count_of_In book n books :
  NoDup (map fst books) -> In (book, n) books -> count_of book books = n.
Proof.
  unfold count_of. induction books as [|[b0 n0] books IH]; simpl; [tauto|].
  intros Hnd [E|Hin].
  - injection E as -> ->. now destruct (pystr_eq_dec book book).
  - inversion Hnd as [|? ? Hnotin Hnd']; subst.
    destruct (pystr_eq_dec book b0) as [->|Hne]; [|auto].
    exfalso. apply Hnotin. change b0 with (fst (b0, n)). now apply in_map.
Qed.

Lemma count_of_positive_In book books :
  1 <= count_of book books -> In (book, count_of book books) books.
Proof.
  unfold count_of. induction books as [|[b0 n0] books IH]; simpl; [lia|].
  destruct (pystr_eq_dec book b0) as [->|Hne]; simpl; [now left|].
  intros H. right. auto.
Qed.

End HistogramFacts.

(** X5: when the analysis raises nothing, the tally is the histogram of
    the books: every book is listed once, and a book is listed with count
    [n] exactly when [n] is the number of verses whose ['v'] is a non-empty
    string with this book as first word, and [n] is not zero. *)
Theorem book_tally_is_histogram (merged : pydict)
    (books : list (pystr * nat)) :
  book_tally merged = inr books ->
  NoDup (map fst books) /\
  forall book n,
    In (book, n) books <->
    n = length (filter (counted_under book) (values merged)) /\ 1 <= n.
Proof.
  unfold book_tally. intros Ht.
  destruct (@tally_histogram _ _ _ Ht (NoDup_nil _) (Forall_nil _))
    as (Hnd & Hpos & Hc).
  split; [assumption|]. intros book n. split.
  - intros Hin. rewrite <- (@count_of_In book n books Hnd Hin) at 1. rewrite Hc.
    split; [reflexivity|]. rewrite Forall_forall in Hpos.
    exact (Hpos _ Hin).
  - intros [-> Hn]. specialize (Hc book). simpl in Hc. rewrite <- Hc in *.
    now apply count_of_positive_In.
Qed.

Section TopFacts.




End TopFacts.


Section CutFacts.






End CutFacts.


(** ** What the loop reports *)

Section ReportFacts.









Lemma merge_loop_all_keys l : forall m k,
  Forall (fun v => verse_record v = true) (values m) ->
  Forall (fun f => data_model f = true) l ->
  Forall (fun f => printable_ids f = true) l ->
  In k (keys (fst (merge_loop l m))) <->
  In k (keys m) \/ exists g, In g l /\ In k (keys (file_items g)).
Proof.
  intros m k Hm Hl Hp. split; [apply merge_loop_keys|].
  intros [H|(g & Hg & Hk)]; [now apply merge_loop_keeps_keys|].
  pose proof (@merge_loop_lookup l m k Hm Hl Hp) as L.
  destruct (dict_get k (file_items g)) as [v|] eqn:G;
    [|now apply dict_get_None in G].
  pose proof (occurrences_In k l g Hg G) as Hocc.
  destruct (dict_get k m); [eapply dict_get_In_keys; eauto|].
  destruct (occurrences k l); [contradiction|].
  eapply dict_get_In_keys; eauto.
Qed.



End ReportFacts.



(** ** Merging the output again *)

Section KeyOrder.























End KeyOrder.

Section Reabsorb.













End Reabsorb.


End Stdout.

(** ** The properties on example inputs *)

(** The examples are run with a standard output in UTF-8, which encodes
    every code point but the surrogates. *)

Lemma merge_is_deterministic_witness :
  merged_after_loop utf8 [a_json; b_json]
  = merged_after_loop utf8 [b_json; a_json] /\
  merge_json_files utf8 [a_json; b_json] WriteOk
  = merge_json_files utf8 [b_json; a_json] WriteOk /\
  main utf8 [a_json; b_json] WriteOk = main utf8 [b_json; a_json] WriteOk.
Proof.
  apply (@merge_is_deterministic utf8 [a_json; b_json] [b_json; a_json]
           WriteOk).
  - repeat constructor; simpl; intuition discriminate.
  - apply perm_swap.
Defined.




Lemma failed_write_keeps_result_witness :
  returned (merge_json_files utf8 [a_json; b_json] (WriteFails OSError))
  = Some (merged_after_loop utf8 [a_json; b_json]).
Proof.
  apply (@failed_write_keeps_result utf8 [a_json; b_json] OSError).
  vm_compute. intuition.
Defined.


Lemma entry_without_refs_is_kept_witness :
  dict_get (KStr (lit "GEN.1.1"))
    (merged_after_loop utf8 [b_without_r; a_json])
  = Some (obj [("v"%string, str "Genesis 1:1");
               ("r"%string, obj [("x"%string, PInt 1)])]).
Proof.
  refine (proj1 (@entry_without_refs_is_kept utf8 [b_without_r; a_json]
                   a_json b_without_r _ _ (KStr (lit "GEN.1.1")) _ _
                   (perm_swap _ _ _) eq_refl eq_refl eq_refl eq_refl eq_refl
                   eq_refl eq_refl (or_intror eq_refl))).
Defined.

(** The example of the specification: the ['r'] of [b.json] is added to
    the entry that [a.json] gave. *)
Example merge_of_a_and_b :
  returned (merge_json_files utf8 [a_json; b_json] WriteOk)
  = Some [(KStr (lit "GEN.1.1"),
           obj [("v"%string, str "Genesis 1:1");
                ("r"%string, obj [("x"%string, PInt 1);
                                  ("y"%string, PInt 2)])])].
Proof. reflexivity. Qed.



(** With an identifier that the standard output cannot encode, the second
    file that has it is given up at line 46: its ['r'] is not merged and
    its later verses are not stored. *)
Example unprintable_duplicate_cuts_the_file :
  merge_json_files utf8 [surrogate_a_json; surrogate_b_json] WriteOk
  = Returns [(KStr surrogate, obj [("r"%string, obj [("x"%string, PInt 1)])])]
      [Found 2; Processing (lit "a.json"); Processing (lit "b.json");
       ErrorProcessing (lit "b.json") UnicodeEncodeError;
       MergeComplete 1 1; SavingTo;
       WriteAttempt
         [(KStr surrogate, obj [("r"%string, obj [("x"%string, PInt 1)])])];
       Done].
Proof. reflexivity. Qed.



(** With a book name that the standard output cannot encode, the [print]
    of line 100 ends the script with an uncaught [UnicodeEncodeError]
    after the output file is written. *)
Example script_stops_on_unprintable_book :
  forallb analyzable (values (file_items surrogate_book_json)) = true /\
  main utf8 [surrogate_book_json] WriteOk
  = Raises UnicodeEncodeError
      [Banner; Found 1; Processing (lit "s.json"); MergeComplete 1 0;
       SavingTo;
       WriteAttempt
         [(KStr (lit "G"),
           PDict [(KStr (lit "v"), PStr (surrogate ++ lit "Gen 1:1"))])];
       Done; BookStatistics 1] /\
  exit_status (main utf8 [surrogate_book_json] WriteOk) = 1 /\
  exit_status (main utf8_surrogateescape [surrogate_book_json] WriteOk) = 1.
Proof. repeat split. Qed.

Lemma combined_entry_derived_from_a_record_witness :
  exists f record,
    In f [b_json; a_json] /\
    In (KStr (lit "GEN.1.1"), record) (file_items f) /\
    derived_from record
      (obj [("v"%string, str "Genesis 1:1");
            ("r"%string, obj [("x"%string, PInt 1); ("y"%string, PInt 2)])]).
Proof.
  apply (@combined_entry_derived_from_a_record utf8 [b_json; a_json]).
  reflexivity.
Defined.

Lemma book_tally_is_histogram_witness :
  In (lit "Genesis", 2)
     [(lit "Exodus", 1); (lit "Genesis", 2)] <->
  2 = length (filter (counted_under (lit "Genesis"))
                     (values (merged_after_loop utf8 [gen_json; exo_json]))) /\
  1 <= 2.
Proof.
  apply (@book_tally_is_histogram
           (merged_after_loop utf8 [gen_json; exo_json])
           [(lit "Exodus", 1); (lit "Genesis", 2)]).
  vm_compute. reflexivity.
Defined.




